(** * build/all.py: the three-stage build pipeline

    [main] of [build/all.py] calls [gendeps.genDeps], [check.main] and
    [build.main] in that order and stops at the first non-zero status
    code.  The three callees live in other modules; here they are the
    parameters of a section.  Each of them may change the outside world
    (files, console) and may raise instead of returning, so [main] is
    written in a monad that threads the world, records every call made
    by [main] together with its outcome, and propagates an exception. *)

From Stdlib Require Import String ZArith List Bool Lia.
Import ListNotations.
Open Scope Z_scope.
Open Scope string_scope.
Open Scope list_scope.

Set Implicit Arguments.

(** ** Data *)

(** The three collaborators called by [main]. *)
Inductive Stage : Type :=
| GenDeps   (* gendeps.genDeps *)
| Check     (* check.main *)
| Build.    (* build.main *)

Definition Stage_eqb (s t : Stage) : bool :=
  match s, t with
  | GenDeps, GenDeps | Check, Check | Build, Build => true
  | _, _ => false
  end.

(** Position of a stage in the pipeline. *)
Definition rank (s : Stage) : nat :=
  match s with GenDeps => 0 | Check => 1 | Build => 2 end.

(** A Python call either returns a value or raises. *)
Inductive Outcome (E A : Type) : Type :=
| Returns (a : A)
| Raises (e : E).

Arguments Returns {E A} a.
Arguments Raises {E A} e.

(** One call made by [main]: who was called, with which argument list,
    and how the call ended. *)
Record Invocation (E : Type) : Type := MkInvocation
  { callee : Stage;
    call_args : list string;
    outcome : Outcome E Z }.

(** The state of a run: the outside world, and the calls made so far,
    oldest first. *)
Record Run (W E : Type) : Type := MkRun
  { world : W;
    log : list (Invocation E) }.

(** ** The monad *)

Definition M (W E A : Type) : Type := Run W E -> Outcome E A * Run W E.

Definition ret {W E A} (a : A) : M W E A := fun r => (Returns a, r).

Definition bind {W E A B} (m : M W E A) (k : A -> M W E B) : M W E B :=
  fun r =>
    match m r with
    | (Returns a, r') => k a r'
    | (Raises e, r') => (Raises e, r')
    end.

Notation "x <- m ;; k" := (bind m (fun x => k))
  (at level 61, m at next level, right associativity).

(** Python's [code != 0] on integers. *)
Definition ne0 (code : Z) : bool := negb (Z.eqb code 0).

(** How [main] reacts to an outcome: it goes on to the next stage only
    after a returned 0. *)
Definition halts {E} (o : Outcome E Z) : Prop := o <> Returns 0.

(** The argument list of the build stage, line 31. *)
Definition build_args : list string := ["--name"; "compiled"; "+@complete"].

(** ** The program *)

Section Pipeline.

Variable W : Type.   (* the outside world the collaborators act on *)
Variable E : Type.   (* exceptions *)

(** A collaborator takes an argument list and returns a status code or
    raises; it may change the world. *)
Definition Collaborator : Type := list string -> W -> Outcome E Z * W.

Variable gendeps_genDeps : Collaborator.
Variable check_main : Collaborator.
Variable build_main : Collaborator.

Definition collaborator (s : Stage) : Collaborator :=
  match s with
  | GenDeps => gendeps_genDeps
  | Check => check_main
  | Build => build_main
  end.

(** A call from [main] to stage [s]: run the collaborator on the
    current world and record the call with its outcome. *)
Definition invoke (s : Stage) (args : list string) : M W E Z :=
  fun r =>
    let (o, w') := collaborator s args (world r) in
    (o, {| world := w'; log := log r ++ [MkInvocation s args o] |}).

(** [def main(_)], lines 22-31. *)
Definition main (_ : list string) : M W E Z :=
  code <- invoke GenDeps [] ;;
  if ne0 code then ret code else
  code <- invoke Check [] ;;
  if ne0 code then ret code else
  invoke Build ["--name"; "compiled"; "+@complete"].

(** A run of [main] from world [w], with an empty record of calls. *)
Definition run_main (argv : list string) (w : W) : Outcome E Z * Run W E :=
  main argv {| world := w; log := [] |}.

Definition result (argv : list string) (w : W) : Outcome E Z :=
  fst (run_main argv w).

Definition calls (argv : list string) (w : W) : list (Invocation E) :=
  log (snd (run_main argv w)).

Definition final_world (argv : list string) (w : W) : W :=
  world (snd (run_main argv w)).

(** The three ways a run of [main] from [w] can go. *)
Inductive shape (w : W) : Outcome E Z * Run W E -> Prop :=
| stop_at_gendeps o1 w1 :
      gendeps_genDeps [] w = (o1, w1) -> halts o1 ->
      shape w (o1, MkRun w1 [MkInvocation GenDeps [] o1])
| stop_at_check w1 o2 w2 :
      gendeps_genDeps [] w = (Returns 0, w1) ->
      check_main [] w1 = (o2, w2) -> halts o2 ->
      shape w (o2, MkRun w2 [MkInvocation GenDeps [] (Returns 0);
                             MkInvocation Check [] o2])
| reach_build w1 w2 o3 w3 :
      gendeps_genDeps [] w = (Returns 0, w1) ->
      check_main [] w1 = (Returns 0, w2) ->
      build_main build_args w2 = (o3, w3) ->
      shape w (o3, MkRun w3 [MkInvocation GenDeps [] (Returns 0);
                             MkInvocation Check [] (Returns 0);
                             MkInvocation Build build_args o3]).

End Pipeline.

(** ** Observations on a record of calls *)

(** The calls made to stage [s]. *)
Definition calls_to {E} (s : Stage) (l : list (Invocation E)) : list (Invocation E) :=
  filter (fun i => Stage_eqb (callee i) s) l.

Definition invoked {E} (s : Stage) (l : list (Invocation E)) : bool :=
  existsb (fun i => Stage_eqb (callee i) s) l.

(** Two collaborators, each on its own world, behave alike on worlds
    related by [R]: they end the same way and leave related worlds. *)
Definition agree {W1 W2 E : Type} (R : W1 -> W2 -> Prop)
    (f1 : Collaborator W1 E) (f2 : Collaborator W2 E) : Prop :=
  forall (args : list string) (x : W1) (y : W2),
    R x y ->
    fst (f1 args x) = fst (f2 args y)
    /\ R (snd (f1 args x)) (snd (f2 args y)).

(** What a recorded call asked for: the callee and its arguments. *)
Definition request {E} (i : Invocation E) : Stage * list string :=
  (callee i, call_args i).

Section Replay.

Variables W E : Type.
Variables gendeps_genDeps check_main build_main : Collaborator W E.

(** Make the given calls one after the other, each on the world the one
    before it left, whatever they return; collect the outcomes. *)
Fixpoint replay (l : list (Stage * list string)) (w : W)
  : list (Outcome E Z) * W :=
  match l with
  | [] => ([], w)
  | (s, args) :: l' =>
      let (o, w1) := collaborator gendeps_genDeps check_main build_main s args w in
      let (os, w2) := replay l' w1 in
      (o :: os, w2)
  end.

End Replay.

(** ** Stub collaborators, for running the pipeline on examples *)

Module Scenario.

(** The world is the console: each stub prints its name. *)
Definition Console : Type := list string.

Definition stub (name : string) (code : Z) : Collaborator Console string :=
  fun _ out => (Returns code, out ++ [name]).

Definition crash (name : string) : Collaborator Console string :=
  fun _ out => (Raises name, out).

(** A second world that only counts the calls. *)
Definition counting (code : Z) : Collaborator nat string :=
  fun _ n => (Returns code, S n).

Definition pipeline (c1 c2 c3 : Z) (argv : list string) :=
  run_main (stub "gendeps" c1) (stub "check" c2) (stub "build" c3) argv [].

End Scenario.

(** ** Splitting a short list *)

Lemma app_cons_cases {A : Type} (x b : A) (l l1 l2 : list A) :
  x :: l = l1 ++ b :: l2 ->
  (l1 = [] /\ b = x /\ l2 = l)
  \/ (exists l1', l1 = x :: l1' /\ l = l1' ++ b :: l2).
Proof.
  destruct l1 as [ | y l1']; cbn; intros H; injection H as -> ->.
  - left. auto.
  - right. exists l1'. auto.
Qed.

Ltac split_log H :=
  repeat match type of H with
         | _ :: _ = _ ++ _ :: _ =>
             apply app_cons_cases in H;
             destruct H as [(-> & -> & ->) | (? & -> & H)]
         | [] = _ ++ _ :: _ => now apply app_cons_not_nil in H
         end.

(** Unfolding of the program. *)
Ltac unfold_main := unfold run_main, main, bind, invoke, ret.

(** ** The shape of a run *)

Section PipelineFacts.

Variables W E : Type.
Variables gendeps_genDeps check_main build_main : Collaborator W E.

Local Abbreviation run_main := (run_main gendeps_genDeps check_main build_main).
Local Abbreviation result := (result gendeps_genDeps check_main build_main).
Local Abbreviation calls := (calls gendeps_genDeps check_main build_main).
Local Abbreviation shape := (shape gendeps_genDeps check_main build_main).

Lemma halts_Raises (e : E) : halts (Raises e : Outcome E Z).
Proof. unfold halts; discriminate. Qed.

Lemma halts_Returns (c : Z) : ne0 c = true -> halts (Returns c : Outcome E Z).
Proof.
  unfold halts, ne0. intros Hc Heq. injection Heq as ->. discriminate Hc.
Qed.

Lemma ne0_false (c : Z) : ne0 c = false -> c = 0.
Proof.
  unfold ne0. intros Hc. apply negb_false_iff in Hc. now apply Z.eqb_eq.
Qed.

Lemma run_main_shape (argv : list string) (w : W) : shape w (run_main argv w).
Proof.
  unfold_main; cbn.
    destruct (gendeps_genDeps [] w) as [[c1|e1] w1] eqn:H1; cbn.
    2: { apply stop_at_gendeps; [exact H1 | apply halts_Raises]. }
    destruct (ne0 c1) eqn:N1.
    { apply stop_at_gendeps; [exact H1 | now apply halts_Returns]. }
    apply ne0_false in N1; subst c1; cbn.
    destruct (check_main [] w1) as [[c2|e2] w2] eqn:H2; cbn.
    2: { eapply stop_at_check; [exact H1 | exact H2 | apply halts_Raises]. }
    destruct (ne0 c2) eqn:N2.
    { eapply stop_at_check; [exact H1 | exact H2 | now apply halts_Returns]. }
    apply ne0_false in N2; subst c2; cbn.
    destruct (build_main _ w2) as [o3 w3] eqn:H3.
    eapply reach_build; eassumption.
Qed.

(** Case analysis on a run of [main]: replaces [run_main argv w] in the
    goal by each of its three shapes. *)
Ltac by_shape argv w :=
  unfold result, calls;
  let H1 := fresh "Hgen" in
  let H2 := fresh "Hchk" in
  let H3 := fresh "Hbld" in
  let Hh := fresh "Hhalt" in
  destruct (run_main_shape argv w)
    as [oa wa H1 Hh | wa ob wb H1 H2 Hh | wa wb oc wc H1 H2 H3];
  cbn [fst snd log world].

Ltac same_call :=
  repeat match goal with
         | H : ?f ?a ?w = _, H' : ?f ?a ?w = _ |- _ =>
             rewrite H in H'; injection H' as; subst
         end.

(** C1: when [gendeps.genDeps] returns a non-zero [c1], [main] returns
    [c1], and neither [check.main] nor [build.main] is called. *)
Theorem gendeps_failure_is_returned (argv : list string) (w w1 : W) (c1 : Z) :
  gendeps_genDeps [] w = (Returns c1, w1) ->
  c1 <> 0 ->
  result argv w = Returns c1
  /\ invoked Check (calls argv w) = false
  /\ invoked Build (calls argv w) = false.
Proof.
  intros Hg Hc. by_shape argv w; same_call.
  - auto.
  - congruence.
  - congruence.
Qed.

(** C2: when [gendeps.genDeps] returns 0 and [check.main] returns a
    non-zero [c2], [main] returns [c2] and [build.main] is not called. *)
Theorem check_failure_is_returned (argv : list string) (w w1 w2 : W) (c2 : Z) :
  gendeps_genDeps [] w = (Returns 0, w1) ->
  check_main [] w1 = (Returns c2, w2) ->
  c2 <> 0 ->
  result argv w = Returns c2
  /\ invoked Build (calls argv w) = false.
Proof.
  intros Hg Hk Hc. by_shape argv w; same_call.
  - exfalso. now apply Hhalt.
  - auto.
  - congruence.
Qed.

(** C3: when [gendeps.genDeps] and [check.main] both return 0,
    [build.main] is called and whatever code [c3] it returns, zero or
    not, is what [main] returns. *)
Theorem build_result_is_returned (argv : list string) (w w1 w2 w3 : W) (c3 : Z) :
  gendeps_genDeps [] w = (Returns 0, w1) ->
  check_main [] w1 = (Returns 0, w2) ->
  build_main build_args w2 = (Returns c3, w3) ->
  result argv w = Returns c3
  /\ invoked Build (calls argv w) = true.
Proof.
  intros Hg Hk Hb. by_shape argv w; same_call.
  - exfalso. now apply Hhalt.
  - exfalso. now apply Hhalt.
  - auto.
Qed.

(** C4: [main] returns 0 exactly when the three collaborators were
    called and each returned 0; a non-zero result [n] is the code of the
    last call of the run, which is the first call that did not return 0
    (stage 1 or 2 failing, or the build stage). *)
Theorem zero_iff_all_stages_zero (argv : list string) (w : W) :
  (result argv w = Returns 0
   <-> map (@callee E) (calls argv w) = [GenDeps; Check; Build]
       /\ Forall (fun i => outcome i = Returns 0) (calls argv w))
  /\ (forall n : Z,
        result argv w = Returns n -> n <> 0 ->
        exists pre i,
          calls argv w = pre ++ [i]
          /\ outcome i = Returns n
          /\ Forall (fun j => outcome j = Returns 0) pre).
Proof.
  by_shape argv w.
  - split.
    + split.
      * intros ->. exfalso. now apply Hhalt.
      * intros [Hc _]. discriminate Hc.
    + intros n -> _. exists [], (MkInvocation GenDeps [] (Returns n)).
      cbn. auto.
  - split.
    + split.
      * intros ->. exfalso. now apply Hhalt.
      * intros [Hc _]. discriminate Hc.
    + intros n -> _.
      exists [MkInvocation GenDeps [] (Returns 0)],
             (MkInvocation Check [] (Returns n)).
      cbn. auto.
  - split.
    + split.
      * intros ->. split; [reflexivity | ]. repeat constructor.
      * intros [_ Hall]. inversion Hall as [ | ? ? _ Hall1]; subst.
        inversion Hall1 as [ | ? ? _ Hall2]; subst.
        inversion Hall2 as [ | ? ? Hb _]; subst.
        exact Hb.
    + intros n -> _.
      exists [MkInvocation GenDeps [] (Returns 0);
              MkInvocation Check [] (Returns 0)],
             (MkInvocation Build build_args (Returns n)).
      cbn. auto.
Qed.

(** C5: every call of [build.main] made by [main] has the argument list
    ["--name", "compiled", "+@complete"]. *)
Theorem build_called_with_fixed_args (argv : list string) (w : W) :
  Forall (fun i => callee i = Build ->
                   call_args i = ["--name"; "compiled"; "+@complete"])
         (calls argv w).
Proof.
  by_shape argv w; repeat constructor; cbn; discriminate.
Qed.

(** C6: every call of [gendeps.genDeps] or [check.main] made by [main]
    has the empty argument list. *)
Theorem gendeps_and_check_called_with_no_args (argv : list string) (w : W) :
  Forall (fun i => callee i = GenDeps \/ callee i = Check -> call_args i = [])
         (calls argv w).
Proof.
  by_shape argv w; repeat constructor; cbn; intros [H | H]; discriminate H.
Qed.

(** C7: the calls of a run are in pipeline order.  For a call [b] of
    the run, every call made before it is to an earlier stage, and every
    earlier stage has been called before it: [gendeps.genDeps] comes
    before [check.main], which comes before [build.main]. *)
Theorem stages_run_in_order (argv : list string) (w : W)
    (l1 l2 : list (Invocation E)) (b : Invocation E) :
  calls argv w = l1 ++ b :: l2 ->
  (forall a, In a l1 -> (rank (callee a) < rank (callee b))%nat)
  /\ (forall s, (rank s < rank (callee b))%nat -> invoked s l1 = true).
Proof.
  intros H. revert H. by_shape argv w; intros H; split_log H; cbn;
    (split;
     [ intros a Hin; cbn in Hin; intuition (subst; cbn; lia)
     | intros [ | | ] Hs; cbn in *; solve [reflexivity | lia] ]).
Qed.

(** C8: no stage is called twice in a run, and a non-zero code returned
    by stage 1 or 2 is the result of [main], the failing call being the
    last call of the run. *)
Theorem no_stage_is_retried (argv : list string) (w : W) :
  (forall s, (length (calls_to s (calls argv w)) <= 1)%nat)
  /\ (forall i c,
        In i (calls argv w) -> callee i <> Build ->
        outcome i = Returns c -> c <> 0 ->
        result argv w = Returns c
        /\ exists pre, calls argv w = pre ++ [i]).
Proof.
  by_shape argv w; (split; [ intros [ | | ]; cbn; lia | ]);
    intros i c Hin Hnb Ho Hc; cbn in Hin.
  - destruct Hin as [<- | []]. cbn in Ho. split; [exact Ho | ].
    now exists [].
  - destruct Hin as [<- | [<- | []]]; cbn in Ho.
    + congruence.
    + split; [exact Ho | ]. now exists [MkInvocation GenDeps [] (Returns 0)].
  - destruct Hin as [<- | [<- | [<- | []]]]; cbn in Ho, Hnb; congruence.
Qed.

(** C10: in every run [gendeps.genDeps] is called exactly once, it is
    the first call and it is made on the initial world with no
    arguments; and a value returned by [main] is the value returned by
    one of the calls of the run. *)
Theorem gendeps_once_first_and_result_forwarded (argv : list string) (w : W) :
  length (calls_to GenDeps (calls argv w)) = 1%nat
  /\ (exists rest,
        calls argv w
        = MkInvocation GenDeps [] (fst (gendeps_genDeps [] w)) :: rest)
  /\ (forall v, result argv w = Returns v ->
                exists i, In i (calls argv w) /\ outcome i = Returns v).
Proof.
  by_shape argv w; rewrite Hgen; cbn [fst];
    (split; [reflexivity | split; [eexists; reflexivity | ]]);
    intros v ->;
  match goal with
    | |- exists i, In i ?l /\ _ => exists (last l (MkInvocation GenDeps [] (Returns v)))
  end; cbn; auto.
Qed.

(** ** Further facts on a run *)

(** The result of [main], returned or raised, is the outcome of the last
    call it made; every call before that one returned 0; and a run makes
    at least one and at most three calls. *)
Theorem result_is_outcome_of_last_call (argv : list string) (w : W) :
  exists pre i,
    calls argv w = pre ++ [i]
    /\ result argv w = outcome i
    /\ Forall (fun j => outcome j = Returns 0) pre
    /\ (length pre <= 2)%nat.
Proof.
  by_shape argv w.
  - exists [], (MkInvocation GenDeps [] oa). cbn. repeat split; try lia; auto.
  - exists [MkInvocation GenDeps [] (Returns 0)], (MkInvocation Check [] ob).
    cbn. repeat split; try lia; auto.
  - exists [MkInvocation GenDeps [] (Returns 0);
            MkInvocation Check [] (Returns 0)],
           (MkInvocation Build build_args oc).
    cbn. repeat split; try lia; auto.
Qed.

(** [main] has no handler and raises nothing itself: it raises [e]
    exactly when one of its calls raised [e], and a call that raised is
    the last call of the run. *)
Theorem exception_is_propagated (argv : list string) (w : W) (e : E) :
  (result argv w = Raises e
   <-> exists i, In i (calls argv w) /\ outcome i = Raises e)
  /\ (forall i, In i (calls argv w) -> outcome i = Raises e ->
                exists pre, calls argv w = pre ++ [i]).
Proof.
  by_shape argv w.
  - split.
    + split.
      * intros ->. exists (MkInvocation GenDeps [] (Raises e)). cbn. auto.
      * intros (i & [<- | []] & Ho). exact Ho.
    + intros i [<- | []] _. now exists [].
  - split.
    + split.
      * intros ->. exists (MkInvocation Check [] (Raises e)). cbn. auto.
      * intros (i & [<- | [<- | []]] & Ho); cbn in Ho;
          [discriminate Ho | exact Ho].
    + intros i [<- | [<- | []]] Ho; cbn in Ho; [discriminate Ho | ].
      now exists [MkInvocation GenDeps [] (Returns 0)].
  - split.
    + split.
      * intros ->. exists (MkInvocation Build build_args (Raises e)).
        cbn. auto.
      * intros (i & [<- | [<- | [<- | []]]] & Ho); cbn in Ho;
          [discriminate Ho | discriminate Ho | exact Ho].
    + intros i [<- | [<- | [<- | []]]] Ho; cbn in Ho;
        [discriminate Ho | discriminate Ho | ].
      now exists [MkInvocation GenDeps [] (Returns 0);
                  MkInvocation Check [] (Returns 0)].
Qed.

(** [check.main] is called exactly when [gendeps.genDeps] returned 0, and
    [build.main] exactly when, after that, [check.main] returned 0 on the
    world [gendeps.genDeps] left. *)
Theorem later_stages_are_gated (argv : list string) (w : W) :
  (invoked Check (calls argv w) = true
   <-> fst (gendeps_genDeps [] w) = Returns 0)
  /\ (invoked Build (calls argv w) = true
      <-> fst (gendeps_genDeps [] w) = Returns 0
          /\ fst (check_main [] (snd (gendeps_genDeps [] w))) = Returns 0).
Proof.
  by_shape argv w; rewrite Hgen; cbn [fst snd]; try rewrite Hchk; cbn.
  - split; (split; [discriminate | ]).
    + intros Ho. now apply Hhalt in Ho.
    + intros [Ho _]. now apply Hhalt in Ho.
  - split; [split; reflexivity | ]. split; [discriminate | ].
    intros [_ Ho]. now apply Hhalt in Ho.
  - split; [split; reflexivity | ]. split; [ | reflexivity]. auto.
Qed.

(** The collaborators' effects are all there is: making the calls of the
    run again from the initial world, in the recorded order, gives the
    recorded outcomes and the world [main] ends in. *)
Theorem world_is_threaded_through_calls (argv : list string) (w : W) :
  replay gendeps_genDeps check_main build_main
         (map (@request E) (calls argv w)) w
  = (map (@outcome E) (calls argv w),
     final_world gendeps_genDeps check_main build_main argv w).
Proof.
  unfold final_world. by_shape argv w; cbn;
    rewrite ?Hgen, ?Hchk, ?Hbld; reflexivity.
Qed.

(** [main] started with calls already on record only appends its own:
    its result, its calls and the world it leaves do not depend on what
    was recorded before. *)
Theorem main_appends_its_calls (argv : list string) (r : Run W E) :
  main gendeps_genDeps check_main build_main argv r
  = (result argv (world r),
     MkRun (final_world gendeps_genDeps check_main build_main argv (world r))
           (log r ++ calls argv (world r))).
Proof.
  unfold result, calls, final_world. unfold_main. cbn.
  destruct r as [w l]; cbn.
  destruct (gendeps_genDeps [] w) as [[c1 | e1] w1]; cbn; [ | reflexivity].
  destruct (ne0 c1); cbn; [reflexivity | ].
  destruct (check_main [] w1) as [[c2 | e2] w2]; cbn;
    rewrite <- ?app_assoc; cbn; [ | reflexivity].
  destruct (ne0 c2); cbn; [reflexivity | ].
  destruct (build_main _ w2) as [o3 w3]; cbn.
  rewrite <- ?app_assoc. reflexivity.
Qed.

End PipelineFacts.

(** ** Independence from the argument list *)

Section Independence.

Variables W1 W2 E : Type.
Variables (g1 k1 b1 : Collaborator W1 E) (g2 k2 b2 : Collaborator W2 E).
Variable R : W1 -> W2 -> Prop.

(** C9: [main] does not look at its argument list.  Two runs with
    argument lists [a] and [b], whose collaborators return the same codes,
    return the same result and make the same calls with the same
    arguments. *)
Theorem main_ignores_its_arguments (a b : list string) (x : W1) (y : W2) :
  agree R g1 g2 -> agree R k1 k2 -> agree R b1 b2 ->
  R x y ->
  result g1 k1 b1 a x = result g2 k2 b2 b y
  /\ calls g1 k1 b1 a x = calls g2 k2 b2 b y
  /\ R (final_world g1 k1 b1 a x) (final_world g2 k2 b2 b y).
Proof.
  intros Hg Hk Hb Hxy.
  unfold result, calls, final_world, run_main, main, bind, invoke, ret,
    collaborator; cbn.
  destruct (Hg [] x y Hxy) as [Ho1 Hr1].
  destruct (g1 [] x) as [o1 x1], (g2 [] y) as [o1' y1]; cbn in Ho1, Hr1.
  subst o1'. destruct o1 as [c1 | e1]; cbn; [ | auto].
  destruct (ne0 c1); cbn; [auto | ].
  destruct (Hk [] x1 y1 Hr1) as [Ho2 Hr2].
  destruct (k1 [] x1) as [o2 x2], (k2 [] y1) as [o2' y2]; cbn in Ho2, Hr2.
  subst o2'. destruct o2 as [c2 | e2]; cbn; [ | auto].
  destruct (ne0 c2); cbn; [auto | ].
  destruct (Hb build_args x2 y2 Hr2) as [Ho3 Hr3].
  fold build_args.
  destruct (b1 build_args x2) as [o3 x3], (b2 build_args y2) as [o3' y3];
    cbn in Ho3, Hr3.
  subst o3'. auto.
Qed.

End Independence.

(** ** The pipeline on stub collaborators *)

Import Scenario.

(** The four scenarios: gendeps fails; check fails; all succeed; build
    fails. *)
Example scenario_A :
  pipeline 1 0 0 [] =
  (Returns 1, MkRun ["gendeps"] [MkInvocation GenDeps [] (Returns 1)]).
Proof. reflexivity. Qed.

Example scenario_B :
  pipeline 0 2 0 [] =
  (Returns 2, MkRun ["gendeps"; "check"]
                    [MkInvocation GenDeps [] (Returns 0);
                     MkInvocation Check [] (Returns 2)]).
Proof. reflexivity. Qed.

Example scenario_C :
  pipeline 0 0 0 ["--debug"] =
  (Returns 0, MkRun ["gendeps"; "check"; "build"]
                    [MkInvocation GenDeps [] (Returns 0);
                     MkInvocation Check [] (Returns 0);
                     MkInvocation Build build_args (Returns 0)]).
Proof. reflexivity. Qed.

Example scenario_D : fst (pipeline 0 0 5 []) = Returns 5.
Proof. reflexivity. Qed.

(** A collaborator that raises ends the run at once. *)
Example scenario_crash :
  run_main (stub "gendeps" 0) (crash "check") (stub "build" 0) [] [] =
  (Raises "check", MkRun ["gendeps"]
                         [MkInvocation GenDeps [] (Returns 0);
                          MkInvocation Check [] (Raises "check")]).
Proof. reflexivity. Qed.

Lemma stub_agrees_counting (name : string) (code : Z) :
  agree (fun (out : Console) (n : nat) => length out = n)
        (stub name code) (counting code).
Proof.
  intros args out n Hlen. cbn. split; [reflexivity | ].
  rewrite length_app. cbn. rewrite Hlen. apply Nat.add_1_r.
Qed.

Lemma gendeps_failure_is_returned_witness :
  stub "gendeps" 1 [] [] = (Returns 1, ["gendeps"])
  /\ 1 <> 0
  /\ result (stub "gendeps" 1) (stub "check" 0) (stub "build" 0) ["-v"] []
     = Returns 1
  /\ invoked Check
       (calls (stub "gendeps" 1) (stub "check" 0) (stub "build" 0) ["-v"] [])
     = false
  /\ invoked Build
       (calls (stub "gendeps" 1) (stub "check" 0) (stub "build" 0) ["-v"] [])
     = false.
Proof.
  split; [reflexivity | ]. split; [discriminate | ].
  apply (@gendeps_failure_is_returned _ _ (stub "gendeps" 1) (stub "check" 0)
           (stub "build" 0) ["-v"] [] ["gendeps"] 1);
    [reflexivity | discriminate].
Defined.

Lemma check_failure_is_returned_witness :
  result (stub "gendeps" 0) (stub "check" 2) (stub "build" 0) [] [] = Returns 2
  /\ invoked Build
       (calls (stub "gendeps" 0) (stub "check" 2) (stub "build" 0) [] [])
     = false.
Proof.
  apply (@check_failure_is_returned _ _ (stub "gendeps" 0) (stub "check" 2)
           (stub "build" 0) [] [] ["gendeps"] ["gendeps"; "check"] 2);
    [reflexivity | reflexivity | discriminate].
Defined.

Lemma build_result_is_returned_witness :
  result (stub "gendeps" 0) (stub "check" 0) (stub "build" 5) [] [] = Returns 5
  /\ invoked Build
       (calls (stub "gendeps" 0) (stub "check" 0) (stub "build" 5) [] [])
     = true.
Proof.
  apply (@build_result_is_returned _ _ (stub "gendeps" 0) (stub "check" 0)
           (stub "build" 5) [] [] ["gendeps"] ["gendeps"; "check"]
           ["gendeps"; "check"; "build"] 5);
    reflexivity.
Defined.

Lemma zero_iff_all_stages_zero_witness :
  exists pre i,
    calls (stub "gendeps" 0) (stub "check" 0) (stub "build" 5) [] []
    = pre ++ [i]
    /\ outcome i = Returns 5
    /\ Forall (fun j => outcome j = Returns 0) pre.
Proof.
  apply (proj2 (@zero_iff_all_stages_zero _ _ (stub "gendeps" 0)
                  (stub "check" 0) (stub "build" 5) [] []) 5);
    [reflexivity | discriminate].
Defined.

Lemma stages_run_in_order_witness :
  (forall a,
      In a [MkInvocation GenDeps [] (Returns 0 : Outcome string Z);
            MkInvocation Check [] (Returns 0)] ->
      (rank (callee a) < rank Build)%nat)
  /\ (forall s, (rank s < rank Build)%nat ->
        invoked s [MkInvocation GenDeps [] (Returns 0 : Outcome string Z);
                   MkInvocation Check [] (Returns 0)] = true).
Proof.
  apply (@stages_run_in_order _ _ (stub "gendeps" 0) (stub "check" 0)
           (stub "build" 5) [] []
           [MkInvocation GenDeps [] (Returns 0);
            MkInvocation Check [] (Returns 0)]
           []
           (MkInvocation Build build_args (Returns 5))).
  reflexivity.
Defined.

Lemma no_stage_is_retried_witness :
  result (stub "gendeps" 0) (stub "check" 2) (stub "build" 0) [] [] = Returns 2
  /\ exists pre,
       calls (stub "gendeps" 0) (stub "check" 2) (stub "build" 0) [] []
       = pre ++ [MkInvocation Check [] (Returns 2)].
Proof.
  apply (proj2 (@no_stage_is_retried _ _ (stub "gendeps" 0) (stub "check" 2)
                  (stub "build" 0) [] [])
           (MkInvocation Check [] (Returns 2)) 2).
  - cbn. auto.
  - discriminate.
  - reflexivity.
  - discriminate.
Defined.

Lemma main_ignores_its_arguments_witness :
  result (stub "gendeps" 0) (stub "check" 0) (stub "build" 5) ["--force"] []
  = result (counting 0) (counting 0) (counting 5) [] 0%nat
  /\ calls (stub "gendeps" 0) (stub "check" 0) (stub "build" 5) ["--force"] []
     = calls (counting 0) (counting 0) (counting 5) [] 0%nat
  /\ length (final_world (stub "gendeps" 0) (stub "check" 0) (stub "build" 5)
               ["--force"] [])
     = final_world (counting 0) (counting 0) (counting 5) [] 0%nat.
Proof.
  apply (@main_ignores_its_arguments Console nat string
           (stub "gendeps" 0) (stub "check" 0) (stub "build" 5)
           (counting 0) (counting 0) (counting 5)
           (fun out n => length out = n) ["--force"] [] [] 0%nat).
  - apply stub_agrees_counting.
  - apply stub_agrees_counting.
  - apply stub_agrees_counting.
  - reflexivity.
Defined.

Lemma gendeps_once_first_and_result_forwarded_witness :
  exists i,
    In i (calls (stub "gendeps" 0) (stub "check" 2) (stub "build" 0) [] [])
    /\ outcome i = Returns 2.
Proof.
  apply (proj2 (proj2 (@gendeps_once_first_and_result_forwarded _ _
                         (stub "gendeps" 0) (stub "check" 2) (stub "build" 0)
                         [] [])) 2).
  reflexivity.
Defined.

Lemma exception_is_propagated_witness :
  exists pre,
    calls (stub "gendeps" 0) (crash "check") (stub "build" 0) [] []
    = pre ++ [MkInvocation Check [] (Raises "check")].
Proof.
  apply (proj2 (@exception_is_propagated _ _ (stub "gendeps" 0)
                  (crash "check") (stub "build" 0) [] [] "check")
           (MkInvocation Check [] (Raises "check"))).
  - cbn. auto.
  - reflexivity.
Defined.

Lemma later_stages_are_gated_witness :
  invoked Build
    (calls (stub "gendeps" 0) (stub "check" 0) (stub "build" 5) [] [])
  = true.
Proof.
  apply (proj2 (proj2 (@later_stages_are_gated _ _ (stub "gendeps" 0)
                         (stub "check" 0) (stub "build" 5) [] []))).
  split; reflexivity.
Defined.
